(** * LLMFactory.get_llm (tutorial/llm_factory.py)

    A shallow embedding of the factory that reads the Azure OpenAI settings
    from the process environment, validates them and builds the chat client,
    together with the properties its specification states about it. *)

From Stdlib Require Import Floats.PrimFloat.
From Stdlib Require Import Strings.Ascii.
From stdpp Require Import gmap strings list.

Local Open Scope string_scope.

(** ** Python values used by the factory *)

Module Py.

(** [os.environ] after [load_dotenv()] has run: a mapping from variable
    names to strings. *)
Abbreviation environ := (gmap string string).

(** The exceptions the body of [get_llm] can raise.  [EnvironmentError] is
    the one the code raises itself; [AttributeError] is what a method call
    on [None] raises. *)
Inductive exn : Type :=
| EnvironmentError (msg : string)
| AttributeError (msg : string).

Inductive outcome (A : Type) : Type :=
| Return (a : A)
| Raise (e : exn).
Arguments Return {A} a.
Arguments Raise {A} e.

(** A computation reads the environment and appends the names it looked up
    to a log; it ends with a value or with an exception. *)
Definition M (A : Type) : Type :=
  environ -> list string -> outcome A * list string.

Definition ret {A} (a : A) : M A := fun _ log => (Return a, log).

Definition bind {A B} (m : M A) (k : A -> M B) : M B :=
  fun env log =>
    match m env log with
    | (Return a, log') => k a env log'
    | (Raise e, log') => (Raise e, log')
    end.

Definition raise {A} (e : exn) : M A := fun _ log => (Raise e, log).

(** [os.getenv(key)]: the value, or [None]. *)
Definition getenv (key : string) : M (option string) :=
  fun env log => (Return (env !! key), (log ++ [key])%list).

(** [os.getenv(key, default)]: the value, or [default] when [key] is not
    set. *)
Definition getenv_default (key dflt : string) : M string :=
  fun env log => (Return (default dflt (env !! key)), (log ++ [key])%list).

(** Truth value of an [Optional[str]]: [None] and [""] are false. *)
Definition truthy (v : option string) : bool :=
  match v with
  | Some (String _ _) => true
  | _ => false
  end.

(** [a or b] on computations: [b] is evaluated only when [a] is false. *)
Definition or_ (a b : M (option string)) : M (option string) :=
  bind a (fun x => if truthy x then ret x else b).

(** [sep.join(l)]. *)
Fixpoint join (sep : string) (l : list string) : string :=
  match l with
  | [] => ""
  | [x] => x
  | x :: xs => x +:+ sep +:+ join sep xs
  end.

(** Membership of a character in a string, [c in chars]. *)
Fixpoint char_in (c : Ascii.ascii) (chars : string) : bool :=
  match chars with
  | EmptyString => false
  | String d rest => if Ascii.eqb c d then true else char_in c rest
  end.

(** [s.rstrip(chars)]: [s] without its longest suffix made of characters
    of [chars].  Strings are byte strings here; for [chars = "/"] this
    agrees with Python on UTF-8 text, where the byte of ["/"] occurs only
    as that character. *)
Fixpoint rstrip (s chars : string) : string :=
  match s with
  | EmptyString => EmptyString
  | String c rest =>
      match rstrip rest chars with
      | EmptyString => if char_in c chars then EmptyString else String c EmptyString
      | r => String c r
      end
  end.

(** The method call [v.rstrip(chars)] on an [Optional[str]]. *)
Definition rstrip_method (v : option string) (chars : string) : M string :=
  match v with
  | Some s => ret (rstrip s chars)
  | None => raise (AttributeError "'NoneType' object has no attribute 'rstrip'")
  end.

End Py.

#[global] Instance M_ret : MRet Py.M := @Py.ret.
#[global] Instance M_bind : MBind Py.M := fun A B k m => Py.bind m k.

(** ** The factory *)

(** The keyword arguments [AzureChatOpenAI] is called with.  The client
    library is outside the repository: a handle is the record of what it was
    constructed from, and [Py.Return h] at the end of [get_llm] says that the
    constructor is called with [h].  What the constructor itself does with
    them is a parameter of [get_llm_with] below. *)
Record AzureChatOpenAI : Type := {
  api_key : option string;
  api_version : string;
  azure_endpoint : string;
  azure_deployment : option string;
  temperature : float;
}.

Record LLMFactory : Type := { llm : option AzureChatOpenAI }.

(** [LLMFactory.__init__]. *)
Definition init : LLMFactory := {| llm := None |}.

(** [if b: missing.append(name)]. *)
Definition append_if (b : bool) (missing : list string) (name : string) : list string :=
  if b then (missing ++ [name])%list else missing.

(** [LLMFactory.get_llm].  The method neither reads nor assigns [self.llm]. *)
Definition get_llm (self : LLMFactory) : Py.M AzureChatOpenAI :=
   api_key ← Py.getenv "AZURE_OPENAI_KEY" ;
   api_version ← Py.getenv_default "AZURE_OPENAI_VERSION" "2024-02-15-preview" ;
   azure_endpoint ← Py.getenv "AZURE_OPENAI_ENDPOINT" ;
   azure_deployment ← Py.or_ (Py.getenv "AZURE_OPENAI_DEPLOYMENT_NAME")
                             (Py.getenv "AZURE_OPENAI_DEPLOYMENT") ;
   let missing := [] in
   let missing := append_if (negb (Py.truthy api_key)) missing "AZURE_OPENAI_KEY" in
   let missing := append_if (negb (Py.truthy azure_endpoint)) missing "AZURE_OPENAI_ENDPOINT" in
   let missing := append_if (negb (Py.truthy azure_deployment)) missing "AZURE_OPENAI_DEPLOYMENT_NAME" in
   match missing with
   | _ :: _ =>
       Py.raise (Py.EnvironmentError
                   ("Missing required environment variables: " +:+ Py.join ", " missing))
   | [] =>
       azure_endpoint ← Py.rstrip_method azure_endpoint "/" ;
       mret {| api_key := api_key;
                 api_version := api_version;
                 azure_endpoint := azure_endpoint;
                 azure_deployment := azure_deployment;
                 temperature := 0.0%float |}
   end.

(** ** Vocabulary of the specification *)

(** The three required fields, the variable each is reported under, and the
    value the code resolves for it. *)
Inductive field : Type := Credential | Endpoint | Deployment.

Definition required_fields : list field := [Credential; Endpoint; Deployment].

Definition field_name (f : field) : string :=
  match f with
  | Credential => "AZURE_OPENAI_KEY"
  | Endpoint => "AZURE_OPENAI_ENDPOINT"
  | Deployment => "AZURE_OPENAI_DEPLOYMENT_NAME"
  end.

(** Value of [getenv(primary) or getenv(secondary)]. *)
Definition resolved_deployment (env : gmap string string) : option string :=
  if Py.truthy (env !! "AZURE_OPENAI_DEPLOYMENT_NAME")
  then env !! "AZURE_OPENAI_DEPLOYMENT_NAME"
  else env !! "AZURE_OPENAI_DEPLOYMENT".

Definition field_value (env : gmap string string) (f : field) : option string :=
  match f with
  | Credential => env !! "AZURE_OPENAI_KEY"
  | Endpoint => env !! "AZURE_OPENAI_ENDPOINT"
  | Deployment => resolved_deployment env
  end.

(** A field is present when its value is neither absent nor empty. *)
Definition present (env : gmap string string) (f : field) : bool :=
  Py.truthy (field_value env f).

Definition missing_fields (env : gmap string string) : list field :=
  List.filter (fun f => negb (present env f)) required_fields.

Definition present_fields (env : gmap string string) : list field :=
  List.filter (present env) required_fields.

(** The variables one call looks up, in order. *)
Definition lookups (env : gmap string string) : list string :=
  (["AZURE_OPENAI_KEY"; "AZURE_OPENAI_VERSION"; "AZURE_OPENAI_ENDPOINT";
    "AZURE_OPENAI_DEPLOYMENT_NAME"] ++
   (if Py.truthy (env !! "AZURE_OPENAI_DEPLOYMENT_NAME") then []
    else ["AZURE_OPENAI_DEPLOYMENT"]))%list.

(** Reading an error message back: the text before the list, and the list
    split at [", "]. *)
Definition header : string := "Missing required environment variables: ".

Fixpoint strip_prefix (p s : string) : option string :=
  match p, s with
  | EmptyString, _ => Some s
  | String a p', String b s' => if Ascii.eqb a b then strip_prefix p' s' else None
  | String _ _, EmptyString => None
  end.

Fixpoint split_comma (s cur : string) : list string :=
  match s with
  | EmptyString => [cur]
  | String ","%char (String " "%char rest) => cur :: split_comma rest EmptyString
  | String c rest => split_comma rest (cur +:+ String c EmptyString)
  end.

Definition reported_names (msg : string) : option (list string) :=
  match strip_prefix header msg with
  | Some body => Some (split_comma body EmptyString)
  | None => None
  end.

(** The first candidate that is set and non-empty. *)
Definition first_nonempty (candidates : list (option string)) : option string :=
  match List.filter Py.truthy candidates with
  | v :: _ => v
  | [] => None
  end.

(** [n] copies of the path separator. *)
Fixpoint slashes (n : nat) : string :=
  match n with
  | O => EmptyString
  | S n' => String "/"%char (slashes n')
  end.

Fixpoint ends_with_slash (s : string) : bool :=
  match s with
  | EmptyString => false
  | String c EmptyString => Ascii.eqb c "/"%char
  | String _ rest => ends_with_slash rest
  end.

Definition absent_or_empty (v : option string) : Prop :=
  v = None \/ v = Some "".

Definition nonempty (v : option string) : Prop :=
  exists s, v = Some s /\ s <> "".

(** The invariant the specification states for the configuration a client
    is built from. *)
Definition configuration_invariant (h : AzureChatOpenAI) : Prop :=
  nonempty (api_key h) /\
  api_version h <> "" /\
  azure_endpoint h <> "" /\
  nonempty (azure_deployment h) /\
  ends_with_slash (azure_endpoint h) = false.

(** Exactly one of the two deployment-name variables is set and non-empty. *)
Definition exactly_one_deployment_variable (env : gmap string string) : Prop :=
  xorb (Py.truthy (env !! "AZURE_OPENAI_DEPLOYMENT_NAME"))
       (Py.truthy (env !! "AZURE_OPENAI_DEPLOYMENT")) = true.

(** ** Sample environments *)

(** Only the secondary deployment name is set; the endpoint ends with a
    separator. *)
Definition env_secondary : gmap string string :=
  <["AZURE_OPENAI_KEY" := "k"]>
  (<["AZURE_OPENAI_ENDPOINT" := "https://x.example.com/"]>
  (<["AZURE_OPENAI_DEPLOYMENT" := "gpt"]> ∅)).

(** Both deployment names are set. *)
Definition env_both : gmap string string :=
  <["AZURE_OPENAI_KEY" := "k"]>
  (<["AZURE_OPENAI_ENDPOINT" := "https://x.example.com"]>
  (<["AZURE_OPENAI_DEPLOYMENT_NAME" := "primary"]>
  (<["AZURE_OPENAI_DEPLOYMENT" := "secondary"]> ∅))).

(** The version is set to the empty string and the endpoint is a lone
    separator. *)
Definition env_blank : gmap string string :=
  <["AZURE_OPENAI_KEY" := "k"]>
  (<["AZURE_OPENAI_VERSION" := ""]>
  (<["AZURE_OPENAI_ENDPOINT" := "/"]>
  (<["AZURE_OPENAI_DEPLOYMENT_NAME" := "gpt"]> ∅))).

(** Only the credential is set. *)
Definition env_key_only : gmap string string :=
  <["AZURE_OPENAI_KEY" := "k"]> ∅.

(** Another credential, nothing else. *)
Definition env_other_key : gmap string string :=
  <["AZURE_OPENAI_KEY" := "another"]> ∅.

(** [os.environ[n] = value n] for every [n] of [names]. *)
Definition set_variables (names : list string) (value : string -> string)
    (env : gmap string string) : gmap string string :=
  foldr (fun n m => <[n := value n]> m) env names.

(** ** The client library *)

(** How a call ends once the library constructor has run: with the client it
    built, with an exception of the factory's own code, or with whatever the
    constructor raised, which [get_llm] does not catch. *)
Inductive result (Client LibraryError : Type) : Type :=
| Returned (c : Client)
| Raised (e : Py.exn)
| LibraryRaised (e : LibraryError).
Arguments Returned {Client LibraryError} c.
Arguments Raised {Client LibraryError} e.
Arguments LibraryRaised {Client LibraryError} e.

Definition library_result {Client LibraryError : Type}
    (r : Client + LibraryError) : result Client LibraryError :=
  match r with
  | inl c => Returned c
  | inr e => LibraryRaised e
  end.

(** [LLMFactory.get_llm] with the constructor of the library as a parameter:
    [construct] is given the keyword arguments and the environment, which it
    may read, and returns a client or raises. *)
Definition get_llm_with {Client LibraryError : Type}
    (construct : AzureChatOpenAI -> gmap string string -> Client + LibraryError)
    (self : LLMFactory) (env : gmap string string) (log : list string)
    : result Client LibraryError * list string :=
  match get_llm self env log with
  | (Py.Return kwargs, log') => (library_result (construct kwargs env), log')
  | (Py.Raise e, log') => (Raised e, log')
  end.

(** A stand-in for the library to run examples with: it refuses an empty
    endpoint and a proxy setting it cannot use, and otherwise hands back its
    arguments. *)
Definition sample_construct (kwargs : AzureChatOpenAI)
    (env : gmap string string) : AzureChatOpenAI + string :=
  match azure_endpoint kwargs, env !! "HTTPS_PROXY" with
  | EmptyString, _ => inr "invalid endpoint"
  | _, Some EmptyString => inr "invalid proxy"
  | _, _ => inl kwargs
  end.

(** The keyword arguments built from a key, an endpoint value and a
    deployment identifier. *)
Definition arguments_of (env : gmap string string)
    (key endpoint deployment : string) : AzureChatOpenAI :=
  {| api_key := Some key;
     api_version := default "2024-02-15-preview" (env !! "AZURE_OPENAI_VERSION");
     azure_endpoint := Py.rstrip endpoint "/";
     azure_deployment := Some deployment;
     temperature := 0.0%float |}.

(** Values to give to the variables of a message. *)
Definition sample_value (n : string) : string :=
  if String.eqb n "AZURE_OPENAI_ENDPOINT" then "https://x.example.com:abc"
  else "gpt".

(** ** Running the factory *)

Ltac run_get_llm :=
  unfold get_llm, mbind, M_bind, mret, M_ret, Py.or_, Py.bind, Py.getenv,
    Py.getenv_default, Py.rstrip_method, Py.ret, Py.raise, append_if.

Example get_llm_env_secondary :
  get_llm init env_secondary [] =
  (Py.Return {| api_key := Some "k"; api_version := "2024-02-15-preview";
                azure_endpoint := "https://x.example.com";
                azure_deployment := Some "gpt"; temperature := 0.0%float |},
   ["AZURE_OPENAI_KEY"; "AZURE_OPENAI_VERSION"; "AZURE_OPENAI_ENDPOINT";
    "AZURE_OPENAI_DEPLOYMENT_NAME"; "AZURE_OPENAI_DEPLOYMENT"]).
Proof. vm_compute. reflexivity. Qed.

Example get_llm_env_both :
  get_llm init env_both [] =
  (Py.Return {| api_key := Some "k"; api_version := "2024-02-15-preview";
                azure_endpoint := "https://x.example.com";
                azure_deployment := Some "primary"; temperature := 0.0%float |},
   ["AZURE_OPENAI_KEY"; "AZURE_OPENAI_VERSION"; "AZURE_OPENAI_ENDPOINT";
    "AZURE_OPENAI_DEPLOYMENT_NAME"]).
Proof. vm_compute. reflexivity. Qed.

Example get_llm_env_blank :
  get_llm init env_blank [] =
  (Py.Return {| api_key := Some "k"; api_version := "";
                azure_endpoint := "";
                azure_deployment := Some "gpt"; temperature := 0.0%float |},
   ["AZURE_OPENAI_KEY"; "AZURE_OPENAI_VERSION"; "AZURE_OPENAI_ENDPOINT";
    "AZURE_OPENAI_DEPLOYMENT_NAME"]).
Proof. vm_compute. reflexivity. Qed.

Example get_llm_env_key_only :
  get_llm init env_key_only [] =
  (Py.Raise (Py.EnvironmentError
     "Missing required environment variables: AZURE_OPENAI_ENDPOINT, AZURE_OPENAI_DEPLOYMENT_NAME"),
   ["AZURE_OPENAI_KEY"; "AZURE_OPENAI_VERSION"; "AZURE_OPENAI_ENDPOINT";
    "AZURE_OPENAI_DEPLOYMENT_NAME"; "AZURE_OPENAI_DEPLOYMENT"]).
Proof. vm_compute. reflexivity. Qed.

Section Run.
Variable self : LLMFactory.
Variable env : gmap string string.
Variable log : list string.

Lemma missing_fields_cases :
  missing_fields env =
  ((if present env Credential then [] else [Credential]) ++
   (if present env Endpoint then [] else [Endpoint]) ++
   (if present env Deployment then [] else [Deployment]))%list.
Proof.
  unfold missing_fields, required_fields. simpl.
  destruct (present env Credential), (present env Endpoint),
    (present env Deployment); reflexivity.
Qed.

(** Some required field is missing: the call raises, with the names of the
    missing fields in the message. *)
Lemma get_llm_raises :
  missing_fields env <> [] ->
  get_llm self env log =
  (Py.Raise (Py.EnvironmentError
               (header +:+ Py.join ", " (field_name <$> missing_fields env))),
   (log ++ lookups env)%list).
Proof.
  rewrite missing_fields_cases.
  unfold present, field_value, resolved_deployment, lookups. run_get_llm.
  cbv beta iota.
  destruct (env !! "AZURE_OPENAI_KEY") as [[|? ?]|];
    destruct (env !! "AZURE_OPENAI_ENDPOINT") as [[|? ?]|];
    destruct (env !! "AZURE_OPENAI_DEPLOYMENT_NAME") as [[|? ?]|];
    simpl;
    destruct (env !! "AZURE_OPENAI_DEPLOYMENT") as [[|? ?]|];
    simpl; intros Hm; try (exfalso; apply Hm; reflexivity);
    rewrite <- ?(assoc_L (++)); reflexivity.
Qed.

(** No required field is missing: the call returns the client built from
    the resolved values. *)
Lemma get_llm_returns :
  missing_fields env = [] ->
  exists e,
    env !! "AZURE_OPENAI_ENDPOINT" = Some e /\
    get_llm self env log =
    (Py.Return {| api_key := env !! "AZURE_OPENAI_KEY";
                  api_version := default "2024-02-15-preview"
                                   (env !! "AZURE_OPENAI_VERSION");
                  azure_endpoint := Py.rstrip e "/";
                  azure_deployment := resolved_deployment env;
                  temperature := 0.0%float |},
     (log ++ lookups env)%list).
Proof.
  rewrite missing_fields_cases.
  unfold present, field_value, resolved_deployment, lookups. run_get_llm.
  cbv beta iota.
  destruct (env !! "AZURE_OPENAI_KEY") as [[|? ?]|];
    destruct (env !! "AZURE_OPENAI_ENDPOINT") as [[|? ?]|];
    destruct (env !! "AZURE_OPENAI_DEPLOYMENT_NAME") as [[|? ?]|];
    simpl;
    destruct (env !! "AZURE_OPENAI_DEPLOYMENT") as [[|? ?]|];
    simpl; intros Hm; try discriminate Hm;
    (eexists; split; [reflexivity|]);
    rewrite <- ?(assoc_L (++)); reflexivity.
Qed.

End Run.

(** ** Outcomes of a call *)

Lemma truthy_false (v : option string) :
  Py.truthy v = false <-> absent_or_empty v.
Proof.
  unfold absent_or_empty. destruct v as [[|c s]|]; simpl; split;
    intros H; try reflexivity; try discriminate H; auto;
    destruct H as [H|H]; discriminate H.
Qed.

Lemma truthy_true (v : option string) :
  Py.truthy v = true <-> nonempty v.
Proof.
  unfold nonempty. destruct v as [[|c s]|]; simpl; split; intros H;
    try reflexivity; try discriminate H.
  - destruct H as (s & Hs & Hne). inversion Hs; subst. contradiction.
  - exists (String c s). split; [reflexivity | discriminate].
  - destruct H as (s & Hs & _). discriminate Hs.
Qed.

Lemma missing_fields_nil (env : gmap string string) :
  missing_fields env = [] <-> forall f, present env f = true.
Proof.
  rewrite missing_fields_cases. split.
  - intros H [| |];
      destruct (present env Credential), (present env Endpoint),
        (present env Deployment); simpl in H; try discriminate H; reflexivity.
  - intros H. rewrite !H. reflexivity.
Qed.

Lemma missing_fields_not_nil (env : gmap string string) :
  missing_fields env <> [] <-> exists f, absent_or_empty (field_value env f).
Proof.
  rewrite missing_fields_nil. split.
  - intros H.
    destruct (present env Credential) eqn:Hc;
      [| exists Credential; apply truthy_false, Hc].
    destruct (present env Endpoint) eqn:He;
      [| exists Endpoint; apply truthy_false, He].
    destruct (present env Deployment) eqn:Hd;
      [| exists Deployment; apply truthy_false, Hd].
    exfalso. apply H. intros [| |]; assumption.
  - intros (f & Hf) H. apply truthy_false in Hf.
    specialize (H f). unfold present in H. congruence.
Qed.

Lemma nil_or_not {A : Type} (l : list A) : l = [] \/ l <> [].
Proof. destruct l; [left; reflexivity | right; discriminate]. Qed.

Section Outcome.
Variable self : LLMFactory.
Variable env : gmap string string.
Variable log : list string.

Lemma get_llm_Raise_inv (e : Py.exn) :
  (get_llm self env log).1 = Py.Raise e ->
  missing_fields env <> [] /\
  e = Py.EnvironmentError
        (header +:+ Py.join ", " (field_name <$> missing_fields env)).
Proof.
  intros H. destruct (nil_or_not (missing_fields env)) as [Hm|Hm].
  - destruct (get_llm_returns self env log Hm) as (x & _ & Hr).
    rewrite Hr in H. discriminate H.
  - split; [assumption|].
    rewrite (get_llm_raises self env log Hm) in H.
    cbn [fst] in H. injection H as <-. reflexivity.
Qed.

Lemma get_llm_Return_inv (h : AzureChatOpenAI) :
  (get_llm self env log).1 = Py.Return h ->
  missing_fields env = [] /\
  exists e,
    env !! "AZURE_OPENAI_ENDPOINT" = Some e /\
    h = {| api_key := env !! "AZURE_OPENAI_KEY";
           api_version := default "2024-02-15-preview"
                            (env !! "AZURE_OPENAI_VERSION");
           azure_endpoint := Py.rstrip e "/";
           azure_deployment := resolved_deployment env;
           temperature := 0.0%float |}.
Proof.
  intros H. destruct (nil_or_not (missing_fields env)) as [Hm|Hm].
  - split; [assumption|].
    destruct (get_llm_returns self env log Hm) as (x & Hx & Hr).
    rewrite Hr in H. cbn [fst] in H. injection H as <-.
    exists x. split; [assumption | reflexivity].
  - rewrite (get_llm_raises self env log Hm) in H. discriminate H.
Qed.

Lemma get_llm_log :
  (get_llm self env log).2 = (log ++ lookups env)%list.
Proof.
  destruct (nil_or_not (missing_fields env)) as [Hm|Hm].
  - destruct (get_llm_returns self env log Hm) as (x & _ & Hr).
    rewrite Hr. reflexivity.
  - rewrite (get_llm_raises self env log Hm). reflexivity.
Qed.

End Outcome.

(** ** Reading the error message *)

Ltac by_presence env :=
  rewrite (missing_fields_cases env);
  destruct (present env Credential) eqn:?, (present env Endpoint) eqn:?,
    (present env Deployment) eqn:?.

Lemma reported_names_missing (env : gmap string string) :
  missing_fields env <> [] ->
  reported_names (header +:+ Py.join ", " (field_name <$> missing_fields env))
  = Some (field_name <$> missing_fields env).
Proof.
  by_presence env; intros H; try (exfalso; apply H; reflexivity);
    vm_compute; reflexivity.
Qed.



Lemma elem_of_missing_fields (env : gmap string string) (f : field) :
  f ∈ missing_fields env <-> absent_or_empty (field_value env f).
Proof.
  rewrite <- truthy_false. unfold missing_fields.
  rewrite list_elem_of_In, List.filter_In, negb_true_iff. unfold present.
  split; [intros [_ H]; exact H | intros H; split; [|exact H]].
  destruct f; simpl; auto.
Qed.

Lemma field_name_inj : Inj (=) (=) field_name.
Proof. intros [| |] [| |] H; try reflexivity; discriminate H. Qed.


Lemma missing_names_set (env : gmap string string) :
  list_to_set (field_name <$> missing_fields env) =@{gset string}
  list_to_set (field_name <$> required_fields) ∖
  list_to_set (field_name <$> present_fields env).
Proof.
  unfold missing_fields, present_fields, required_fields. simpl.
  destruct (present env Credential), (present env Endpoint),
    (present env Deployment); vm_compute; reflexivity.
Qed.

(** ** Validation *)

(** C1: a call raises exactly when some required field (credential key,
    endpoint URL, deployment identifier) is absent or empty; the names listed
    in the message are then, as a set, all required names minus the names of
    the present fields; and when both deployment-name variables are unset the
    deployment identifier is among the names reported. *)
Theorem C1_missing_fields_reported
    (self : LLMFactory) (env : gmap string string) (log : list string) :
  ((exists e, (get_llm self env log).1 = Py.Raise e) <->
   (exists f, f ∈ required_fields /\ absent_or_empty (field_value env f))) /\
  (forall e, (get_llm self env log).1 = Py.Raise e ->
     exists msg names,
       e = Py.EnvironmentError msg /\
       reported_names msg = Some names /\
       list_to_set names =@{gset string}
         list_to_set (field_name <$> required_fields) ∖
         list_to_set (field_name <$> present_fields env)) /\
  (env !! "AZURE_OPENAI_DEPLOYMENT_NAME" = None ->
   env !! "AZURE_OPENAI_DEPLOYMENT" = None ->
   exists msg names,
     (get_llm self env log).1 = Py.Raise (Py.EnvironmentError msg) /\
     reported_names msg = Some names /\
     "AZURE_OPENAI_DEPLOYMENT_NAME" ∈ names).
Proof.
  split; [split|split].
  - intros (e & He). apply get_llm_Raise_inv in He as (Hm & _).
    apply missing_fields_not_nil in Hm as (f & Hf).
    exists f. split; [|exact Hf]. destruct f; set_solver.
  - intros (f & _ & Hf).
    assert (Hm : missing_fields env <> [])
      by (apply missing_fields_not_nil; exists f; exact Hf).
    eexists. rewrite (get_llm_raises self env log Hm). reflexivity.
  - intros e He. apply get_llm_Raise_inv in He as (Hm & ->).
    eexists _, _. split; [reflexivity|]. split.
    + apply reported_names_missing, Hm.
    + apply missing_names_set.
  - intros Hp Hs.
    assert (Hd : Deployment ∈ missing_fields env).
    { apply elem_of_missing_fields. left. simpl.
      unfold resolved_deployment. rewrite Hp. simpl. exact Hs. }
    assert (Hm : missing_fields env <> []).
    { intros Hnil. rewrite Hnil in Hd. inversion Hd. }
    eexists _, _. rewrite (get_llm_raises self env log Hm).
    split; [reflexivity|]. split.
    + apply reported_names_missing, Hm.
    + apply (list_elem_of_fmap_2 field_name _ Deployment), Hd.
Qed.

(** C7: when a required field is missing, the call ends with one
    [EnvironmentError] whose message is the header followed by all the
    missing names joined with [", "]; no client is returned; and when all
    three fields are missing the message lists all three names. *)
Theorem C7_single_error_lists_all_missing
    (self : LLMFactory) (env : gmap string string) (log : list string) :
  (exists f, f ∈ required_fields /\ absent_or_empty (field_value env f)) ->
  let names := field_name <$> missing_fields env in
  (get_llm self env log).1 =
    Py.Raise (Py.EnvironmentError (header +:+ Py.join ", " names)) /\
  (forall f, absent_or_empty (field_value env f) <-> field_name f ∈ names) /\
  reported_names (header +:+ Py.join ", " names) = Some names /\
  (forall h, (get_llm self env log).1 <> Py.Return h) /\
  ((forall f, absent_or_empty (field_value env f)) ->
   (get_llm self env log).1 =
     Py.Raise (Py.EnvironmentError
       "Missing required environment variables: AZURE_OPENAI_KEY, AZURE_OPENAI_ENDPOINT, AZURE_OPENAI_DEPLOYMENT_NAME")).
Proof.
  intros (f0 & _ & Hf0) names.
  assert (Hm : missing_fields env <> [])
    by (apply missing_fields_not_nil; exists f0; exact Hf0).
  assert (Hr := get_llm_raises self env log Hm).
  repeat split.
  - rewrite Hr. reflexivity.
  - intros Hf. apply list_elem_of_fmap_2, elem_of_missing_fields, Hf.
  - intros Hf. apply elem_of_missing_fields.
    apply (@list_elem_of_fmap_inj _ _ field_name field_name_inj) in Hf. exact Hf.
  - apply reported_names_missing, Hm.
  - intros h Hh. rewrite Hr in Hh. discriminate Hh.
  - intros Hall. rewrite Hr. cbn [fst]. do 2 f_equal.
    rewrite (missing_fields_cases env).
    unfold present. rewrite !(proj2 (truthy_false _) (Hall _)). reflexivity.
Qed.

Lemma C7_witness :
  (get_llm init ∅ []).1 =
  Py.Raise (Py.EnvironmentError
    "Missing required environment variables: AZURE_OPENAI_KEY, AZURE_OPENAI_ENDPOINT, AZURE_OPENAI_DEPLOYMENT_NAME").
Proof.
  assert (H : exists f, f ∈ required_fields /\ absent_or_empty (field_value ∅ f)).
  { exists Credential. split; [apply list_elem_of_here | left; reflexivity]. }
  apply (C7_single_error_lists_all_missing init ∅ [] H).
  intros [| |]; left; reflexivity.
Defined.


(** ** Endpoint normalisation *)

Lemma append_nil (t : string) : "" +:+ t = t.
Proof. reflexivity. Qed.

Lemma append_cons (c : ascii) (s t : string) :
  String c s +:+ t = String c (s +:+ t).
Proof. reflexivity. Qed.

Lemma append_nil_r (s : string) : s +:+ "" = s.
Proof.
  induction s as [|c s IH]; [reflexivity|]. rewrite append_cons, IH. reflexivity.
Qed.

Lemma rstrip_slashes_only (n : nat) : Py.rstrip (slashes n) "/" = "".
Proof. induction n as [|n IH]; simpl; [reflexivity|]. rewrite IH. reflexivity. Qed.

(** What [rstrip] removes is a run of separators. *)
Lemma rstrip_removes_slashes (s : string) :
  exists n, s = Py.rstrip s "/" +:+ slashes n.
Proof.
  induction s as [|c rest (n & IH)]; [exists 0; reflexivity|].
  simpl. destruct (Py.rstrip rest "/") as [|a r] eqn:Hr.
  - rewrite append_nil in IH. destruct (Ascii.eqb_spec c "/") as [->|Hc].
    + exists (S n). rewrite append_nil. simpl. f_equal. exact IH.
    + exists n. rewrite append_cons, append_nil. f_equal. exact IH.
  - exists n. rewrite append_cons. f_equal. exact IH.
Qed.

(** What [rstrip] leaves does not end with a separator. *)
Lemma rstrip_no_trailing_slash (s : string) :
  ends_with_slash (Py.rstrip s "/") = false.
Proof.
  induction s as [|c rest IH]; [reflexivity|].
  simpl. destruct (Py.rstrip rest "/") as [|a r] eqn:Hr.
  - destruct (Ascii.eqb_spec c "/") as [->|Hc]; simpl; [reflexivity|].
    apply Ascii.eqb_neq, Hc.
  - exact IH.
Qed.

(** [rstrip] is determined by these two facts. *)
Lemma rstrip_unique (p : string) (n : nat) :
  ends_with_slash p = false -> Py.rstrip (p +:+ slashes n) "/" = p.
Proof.
  induction p as [|c p IH]; intros Hp; [apply rstrip_slashes_only|].
  rewrite append_cons. simpl. destruct p as [|a r].
  - rewrite append_nil, rstrip_slashes_only. simpl in Hp. rewrite Hp. reflexivity.
  - rewrite (IH Hp). reflexivity.
Qed.

Lemma rstrip_unchanged (s : string) :
  ends_with_slash s = false -> Py.rstrip s "/" = s.
Proof.
  intros H. rewrite <- (rstrip_unique s 0 H) at 2.
  simpl. rewrite append_nil_r. reflexivity.
Qed.

Lemma rstrip_nonempty (s : string) :
  (exists c, c <> "/"%char /\ Py.char_in c s = true) -> Py.rstrip s "/" <> "".
Proof.
  induction s as [|a s IH]; intros (c & Hc & Hin); simpl in *; [discriminate Hin|].
  destruct (Py.rstrip s "/") as [|b r] eqn:Hr; [|discriminate].
  destruct (Ascii.eqb_spec a "/") as [->|Ha]; [|discriminate].
  destruct (Ascii.eqb_spec c "/") as [->|_]; [contradiction|].
  exfalso. apply IH; [|reflexivity]. exists c. split; assumption.
Qed.

Example rstrip_example_trailing :
  Py.rstrip "https://x.example.com/" "/" = "https://x.example.com".
Proof. reflexivity. Qed.

Example rstrip_example_several :
  Py.rstrip "https://x.example.com///" "/" = "https://x.example.com".
Proof. reflexivity. Qed.

Example rstrip_example_inner :
  Py.rstrip "https://x.example.com/a" "/" = "https://x.example.com/a".
Proof. reflexivity. Qed.

(** C4: for a non-empty endpoint value (the other required fields being
    present) the client is built, and its endpoint is the value without its
    trailing separators: the value is that endpoint followed by separators
    only, and the endpoint does not end with one.  A single trailing
    separator of ["https://x.example.com/"] is dropped, and a value without
    a trailing separator is passed as it is. *)
Theorem C4_endpoint_trailing_separators_removed
    (self : LLMFactory) (env : gmap string string) (log : list string)
    (e : string) :
  env !! "AZURE_OPENAI_ENDPOINT" = Some e ->
  e <> "" ->
  nonempty (env !! "AZURE_OPENAI_KEY") ->
  nonempty (resolved_deployment env) ->
  exists h,
    (get_llm self env log).1 = Py.Return h /\
    (exists n, e = azure_endpoint h +:+ slashes n) /\
    ends_with_slash (azure_endpoint h) = false /\
    (e = "https://x.example.com/" -> azure_endpoint h = "https://x.example.com") /\
    (ends_with_slash e = false -> azure_endpoint h = e).
Proof.
  intros He Hne Hk Hd.
  assert (Hm : missing_fields env = []).
  { apply missing_fields_nil. intros [| |]; apply truthy_true; simpl;
      [exact Hk | | exact Hd].
    rewrite He. exists e. split; [reflexivity | exact Hne]. }
  destruct (get_llm_returns self env log Hm) as (e' & He' & Hr).
  rewrite He in He'. injection He' as <-.
  eexists. rewrite Hr. split; [reflexivity|]. cbn [azure_endpoint].
  split; [apply rstrip_removes_slashes|].
  split; [apply rstrip_no_trailing_slash|].
  split; [intros ->; reflexivity | apply rstrip_unchanged].
Qed.

Lemma C4_witness :
  exists h,
    (get_llm init env_secondary []).1 = Py.Return h /\
    azure_endpoint h = "https://x.example.com".
Proof.
  destruct (C4_endpoint_trailing_separators_removed init env_secondary []
              "https://x.example.com/") as (h & Hr & _ & _ & Hx & _).
  - reflexivity.
  - discriminate.
  - exists "k". split; [reflexivity | discriminate].
  - exists "gpt". split; [reflexivity | discriminate].
  - exists h. split; [exact Hr | apply Hx; reflexivity].
Defined.


(** ** Resolution of the deployment identifier *)

Lemma first_nonempty_two (a b : option string) :
  first_nonempty [a; b] =
  if Py.truthy a then a else if Py.truthy b then b else None.
Proof.
  unfold first_nonempty. simpl.
  destruct (Py.truthy a), (Py.truthy b); reflexivity.
Qed.

Lemma resolved_deployment_first_nonempty (env : gmap string string) :
  Py.truthy (resolved_deployment env) = true ->
  resolved_deployment env =
  first_nonempty [env !! "AZURE_OPENAI_DEPLOYMENT_NAME";
                  env !! "AZURE_OPENAI_DEPLOYMENT"].
Proof.
  rewrite first_nonempty_two. unfold resolved_deployment.
  destruct (Py.truthy (env !! "AZURE_OPENAI_DEPLOYMENT_NAME")); [reflexivity|].
  intros ->. reflexivity.
Qed.

Lemma resolved_deployment_missing (env : gmap string string) :
  Py.truthy (resolved_deployment env) = false <->
  first_nonempty [env !! "AZURE_OPENAI_DEPLOYMENT_NAME";
                  env !! "AZURE_OPENAI_DEPLOYMENT"] = None.
Proof.
  rewrite first_nonempty_two. unfold resolved_deployment.
  destruct (env !! "AZURE_OPENAI_DEPLOYMENT_NAME") as [[|? ?]|],
    (env !! "AZURE_OPENAI_DEPLOYMENT") as [[|? ?]|]; simpl;
    split; intros H; try reflexivity; discriminate H.
Qed.

(** C2: the deployment identifier is the first set and non-empty value among
    the primary and the secondary variable, looked up in that order, the
    secondary one only when the primary gave nothing; when only the secondary
    variable is set and non-empty its value is used and the deployment
    identifier is not reported missing. *)
Theorem C2_deployment_resolution_order
    (self : LLMFactory) (env : gmap string string) (log : list string) :
  let primary := env !! "AZURE_OPENAI_DEPLOYMENT_NAME" in
  let secondary := env !! "AZURE_OPENAI_DEPLOYMENT" in
  (nonempty primary ->
   (get_llm self env log).2 =
   (log ++ ["AZURE_OPENAI_KEY"; "AZURE_OPENAI_VERSION"; "AZURE_OPENAI_ENDPOINT";
            "AZURE_OPENAI_DEPLOYMENT_NAME"])%list) /\
  (absent_or_empty primary ->
   (get_llm self env log).2 =
   (log ++ ["AZURE_OPENAI_KEY"; "AZURE_OPENAI_VERSION"; "AZURE_OPENAI_ENDPOINT";
            "AZURE_OPENAI_DEPLOYMENT_NAME"; "AZURE_OPENAI_DEPLOYMENT"])%list) /\
  (forall h, (get_llm self env log).1 = Py.Return h ->
     azure_deployment h = first_nonempty [primary; secondary] /\
     nonempty (azure_deployment h)) /\
  (forall e, (get_llm self env log).1 = Py.Raise e ->
     exists names,
       e = Py.EnvironmentError (header +:+ Py.join ", " names) /\
       reported_names (header +:+ Py.join ", " names) = Some names /\
       ("AZURE_OPENAI_DEPLOYMENT_NAME" ∈ names <->
        first_nonempty [primary; secondary] = None)) /\
  (forall v, absent_or_empty primary -> secondary = Some v -> v <> "" ->
     (forall h, (get_llm self env log).1 = Py.Return h ->
        azure_deployment h = Some v) /\
     (forall e, (get_llm self env log).1 = Py.Raise e ->
        exists names,
          e = Py.EnvironmentError (header +:+ Py.join ", " names) /\
          reported_names (header +:+ Py.join ", " names) = Some names /\
          "AZURE_OPENAI_DEPLOYMENT_NAME" ∉ names)).
Proof.
  cbv zeta.
  assert (Hraise : forall e, (get_llm self env log).1 = Py.Raise e ->
     exists names,
       e = Py.EnvironmentError (header +:+ Py.join ", " names) /\
       reported_names (header +:+ Py.join ", " names) = Some names /\
       ("AZURE_OPENAI_DEPLOYMENT_NAME" ∈ names <->
        first_nonempty [env !! "AZURE_OPENAI_DEPLOYMENT_NAME";
                        env !! "AZURE_OPENAI_DEPLOYMENT"] = None)).
  { intros e He. apply get_llm_Raise_inv in He as (Hm & ->).
    eexists. split; [reflexivity|].
    split; [apply reported_names_missing, Hm|].
    rewrite <- resolved_deployment_missing.
    rewrite (@list_elem_of_fmap_inj _ _ field_name field_name_inj _ Deployment).
    rewrite elem_of_missing_fields. symmetry. apply truthy_false. }
  split; [|split; [|split; [|split; [exact Hraise|]]]].
  - intros Hp. apply truthy_true in Hp. rewrite get_llm_log.
    unfold lookups. rewrite Hp. reflexivity.
  - intros Hp. apply truthy_false in Hp. rewrite get_llm_log.
    unfold lookups. rewrite Hp. reflexivity.
  - intros h Hh. apply get_llm_Return_inv in Hh as (Hm & x & _ & ->).
    cbn [azure_deployment].
    assert (Hd := proj1 (missing_fields_nil env) Hm Deployment).
    split; [apply resolved_deployment_first_nonempty | apply truthy_true];
      exact Hd.
  - intros v Hp Hs Hv. apply truthy_false in Hp. split.
    + intros h Hh. apply get_llm_Return_inv in Hh as (Hm & x & _ & ->).
      cbn [azure_deployment]. unfold resolved_deployment.
      rewrite Hp. exact Hs.
    + intros e He. destruct (Hraise e He) as (names & Hn & Hrep & Hiff).
      exists names. split; [exact Hn|]. split; [exact Hrep|].
      intros Hin. apply Hiff in Hin. rewrite first_nonempty_two in Hin.
      rewrite Hp, Hs in Hin.
      destruct v; [contradiction | discriminate Hin].
Qed.

(** The claim that a successful call implies exactly one deployment-name
    variable with a non-empty value fails when both are set. *)
Lemma C3_counterexample :
  ~ (forall h, (get_llm init env_both []).1 = Py.Return h ->
               exactly_one_deployment_variable env_both).
Proof.
  intros H.
  specialize (H _ (f_equal fst get_llm_env_both)).
  vm_compute in H. discriminate H.
Qed.

(** C3 (amended): when a call succeeds, at least one of the two
    deployment-name variables has a non-empty value; both may have one, and
    then the value of the primary variable is the one used. *)
Theorem C3_some_deployment_variable_nonempty
    (self : LLMFactory) (env : gmap string string) (log : list string)
    (h : AzureChatOpenAI) :
  (get_llm self env log).1 = Py.Return h ->
  (nonempty (env !! "AZURE_OPENAI_DEPLOYMENT_NAME") \/
   nonempty (env !! "AZURE_OPENAI_DEPLOYMENT")) /\
  (nonempty (env !! "AZURE_OPENAI_DEPLOYMENT_NAME") ->
   azure_deployment h = env !! "AZURE_OPENAI_DEPLOYMENT_NAME").
Proof.
  intros Hh. apply get_llm_Return_inv in Hh as (Hm & x & _ & ->).
  cbn [azure_deployment].
  assert (Hd := proj1 (missing_fields_nil env) Hm Deployment).
  unfold present, field_value, resolved_deployment in Hd.
  unfold resolved_deployment.
  destruct (Py.truthy (env !! "AZURE_OPENAI_DEPLOYMENT_NAME")) eqn:Hp.
  - split; [left; apply truthy_true, Hp | reflexivity].
  - split; [right; apply truthy_true, Hd|].
    intros Hn. apply truthy_true in Hn. congruence.
Qed.

Lemma C3_witness :
  (nonempty (env_both !! "AZURE_OPENAI_DEPLOYMENT_NAME") \/
   nonempty (env_both !! "AZURE_OPENAI_DEPLOYMENT")) /\
  (nonempty (env_both !! "AZURE_OPENAI_DEPLOYMENT_NAME") ->
   Some "primary" = env_both !! "AZURE_OPENAI_DEPLOYMENT_NAME").
Proof.
  apply (C3_some_deployment_variable_nonempty init env_both []
           {| api_key := Some "k"; api_version := "2024-02-15-preview";
              azure_endpoint := "https://x.example.com";
              azure_deployment := Some "primary"; temperature := 0.0%float |}).
  vm_compute. reflexivity.
Defined.

(** ** The configuration a client is built from *)

(** The invariant "all four values non-empty, endpoint without trailing
    separator" fails for a version set to the empty string and an endpoint
    made of separators only. *)
Lemma C5_counterexample :
  ~ (forall h, (get_llm init env_blank []).1 = Py.Return h ->
               configuration_invariant h).
Proof.
  intros H.
  destruct (H _ (f_equal fst get_llm_env_blank)) as (_ & Hv & _).
  apply Hv. reflexivity.
Qed.

(** C5 (amended): when a call succeeds, the credential key and the deployment
    identifier passed to the client are non-empty strings and the endpoint
    has no trailing separator; the API version is non-empty unless its
    variable is set to the empty string; the endpoint is non-empty when the
    variable holds some character other than the separator. *)
Theorem C5_configuration_after_resolution
    (self : LLMFactory) (env : gmap string string) (log : list string)
    (h : AzureChatOpenAI) :
  (get_llm self env log).1 = Py.Return h ->
  nonempty (api_key h) /\
  nonempty (azure_deployment h) /\
  ends_with_slash (azure_endpoint h) = false /\
  (env !! "AZURE_OPENAI_VERSION" <> Some "" -> api_version h <> "") /\
  (forall e c, env !! "AZURE_OPENAI_ENDPOINT" = Some e ->
               c <> "/"%char -> Py.char_in c e = true ->
               azure_endpoint h <> "").
Proof.
  intros Hh. apply get_llm_Return_inv in Hh as (Hm & x & Hx & ->).
  cbn [api_key azure_deployment azure_endpoint api_version].
  assert (Hp := proj1 (missing_fields_nil env) Hm).
  split; [apply truthy_true, (Hp Credential)|].
  split; [apply truthy_true, (Hp Deployment)|].
  split; [apply rstrip_no_trailing_slash|]. split.
  - destruct (env !! "AZURE_OPENAI_VERSION") as [v|]; simpl; [|discriminate].
    intros Hv ->. apply Hv. reflexivity.
  - intros e c He Hc Hin. rewrite Hx in He. injection He as ->.
    apply rstrip_nonempty. exists c. split; assumption.
Qed.

Lemma C5_witness :
  nonempty (Some "k") /\ nonempty (Some "gpt") /\
  ends_with_slash "https://x.example.com" = false /\
  "2024-02-15-preview" <> "" /\ "https://x.example.com" <> "".
Proof.
  destruct (C5_configuration_after_resolution init env_secondary []
              {| api_key := Some "k"; api_version := "2024-02-15-preview";
                 azure_endpoint := "https://x.example.com";
                 azure_deployment := Some "gpt"; temperature := 0.0%float |})
    as (Hk & Hd & Hs & Hv & He).
  - vm_compute. reflexivity.
  - split; [exact Hk|]. split; [exact Hd|]. split; [exact Hs|]. split.
    + apply Hv. vm_compute. discriminate.
    + apply (He "https://x.example.com/" "h"%char);
        [vm_compute; reflexivity | discriminate | reflexivity].
Defined.

(** C6: when a call succeeds, the API version of the client is
    ["2024-02-15-preview"] if [AZURE_OPENAI_VERSION] is unset, and the value
    of the variable, empty or not, if it is set. *)
Theorem C6_api_version_default
    (self : LLMFactory) (env : gmap string string) (log : list string)
    (h : AzureChatOpenAI) :
  (get_llm self env log).1 = Py.Return h ->
  (env !! "AZURE_OPENAI_VERSION" = None ->
   api_version h = "2024-02-15-preview") /\
  (forall v, env !! "AZURE_OPENAI_VERSION" = Some v -> api_version h = v).
Proof.
  intros Hh. apply get_llm_Return_inv in Hh as (_ & x & _ & ->).
  cbn [api_version]. split.
  - intros ->. reflexivity.
  - intros v ->. reflexivity.
Qed.

Lemma C6_witness :
  (env_blank !! "AZURE_OPENAI_VERSION" = None -> "" = "2024-02-15-preview") /\
  (forall v, env_blank !! "AZURE_OPENAI_VERSION" = Some v -> "" = v).
Proof.
  apply (C6_api_version_default init env_blank []
           {| api_key := Some "k"; api_version := "";
              azure_endpoint := "";
              azure_deployment := Some "gpt"; temperature := 0.0%float |}).
  vm_compute. reflexivity.
Defined.

(** ** The client returned *)

(** C9: when a call succeeds, the client is built from the credential key,
    the API version, the endpoint without trailing separators and the
    deployment identifier as resolved from the environment, with the
    temperature set to 0.0. *)
Theorem C9_client_built_from_resolved_values
    (self : LLMFactory) (env : gmap string string) (log : list string)
    (h : AzureChatOpenAI) :
  (get_llm self env log).1 = Py.Return h ->
  exists key endpoint deployment,
    env !! "AZURE_OPENAI_KEY" = Some key /\
    env !! "AZURE_OPENAI_ENDPOINT" = Some endpoint /\
    first_nonempty [env !! "AZURE_OPENAI_DEPLOYMENT_NAME";
                    env !! "AZURE_OPENAI_DEPLOYMENT"] = Some deployment /\
    h = {| api_key := Some key;
           api_version := default "2024-02-15-preview"
                            (env !! "AZURE_OPENAI_VERSION");
           azure_endpoint := Py.rstrip endpoint "/";
           azure_deployment := Some deployment;
           temperature := 0.0%float |}.
Proof.
  intros Hh. apply get_llm_Return_inv in Hh as (Hm & x & Hx & ->).
  assert (Hp := proj1 (missing_fields_nil env) Hm).
  destruct (proj1 (truthy_true _) (Hp Credential)) as (k & Hk & _).
  assert (Hd := Hp Deployment). unfold present in Hd. simpl in Hd.
  destruct (proj1 (truthy_true _) Hd) as (d & Hd' & _).
  simpl in Hk. exists k, x, d. split; [exact Hk|]. split; [exact Hx|].
  rewrite <- (resolved_deployment_first_nonempty env Hd).
  split; [exact Hd'|]. rewrite Hk, Hd'. reflexivity.
Qed.

Lemma C9_witness :
  exists key endpoint deployment,
    env_secondary !! "AZURE_OPENAI_KEY" = Some key /\
    env_secondary !! "AZURE_OPENAI_ENDPOINT" = Some endpoint /\
    first_nonempty [env_secondary !! "AZURE_OPENAI_DEPLOYMENT_NAME";
                    env_secondary !! "AZURE_OPENAI_DEPLOYMENT"] = Some deployment /\
    {| api_key := Some "k"; api_version := "2024-02-15-preview";
       azure_endpoint := "https://x.example.com";
       azure_deployment := Some "gpt"; temperature := 0.0%float |} =
    {| api_key := Some key;
       api_version := default "2024-02-15-preview"
                        (env_secondary !! "AZURE_OPENAI_VERSION");
       azure_endpoint := Py.rstrip endpoint "/";
       azure_deployment := Some deployment;
       temperature := 0.0%float |}.
Proof.
  apply (C9_client_built_from_resolved_values init env_secondary []).
  vm_compute. reflexivity.
Defined.

(** ** Which variables decide the outcome *)

Lemma present_deployment (env : gmap string string) :
  present env Deployment = true <->
  nonempty (env !! "AZURE_OPENAI_DEPLOYMENT_NAME") \/
  nonempty (env !! "AZURE_OPENAI_DEPLOYMENT").
Proof.
  unfold present, field_value, resolved_deployment.
  rewrite <- !truthy_true.
  destruct (Py.truthy (env !! "AZURE_OPENAI_DEPLOYMENT_NAME")) eqn:Hp.
  - rewrite Hp. split; auto.
  - split; [auto|]. intros [H|H]; [discriminate H | exact H].
Qed.

(** Validation passes, and the constructor is called, exactly when the key
    and the endpoint variables are set and non-empty and at least one of the
    two deployment-name variables is. *)
Lemma validation_passes_iff
    (self : LLMFactory) (env : gmap string string) (log : list string) :
  (exists h, (get_llm self env log).1 = Py.Return h) <->
  nonempty (env !! "AZURE_OPENAI_KEY") /\
  nonempty (env !! "AZURE_OPENAI_ENDPOINT") /\
  (nonempty (env !! "AZURE_OPENAI_DEPLOYMENT_NAME") \/
   nonempty (env !! "AZURE_OPENAI_DEPLOYMENT")).
Proof.
  rewrite <- present_deployment. split.
  - intros (h & Hh). apply get_llm_Return_inv in Hh as (Hm & _).
    assert (Hp := proj1 (missing_fields_nil env) Hm).
    split; [apply truthy_true, (Hp Credential)|].
    split; [apply truthy_true, (Hp Endpoint) | apply (Hp Deployment)].
  - intros (Hk & He & Hd).
    assert (Hm : missing_fields env = []).
    { apply missing_fields_nil. intros [| |];
        [apply truthy_true, Hk | apply truthy_true, He | exact Hd]. }
    destruct (get_llm_returns self env log Hm) as (x & _ & Hr).
    eexists. rewrite Hr. reflexivity.
Qed.

Lemma missing_fields_ext (env1 env2 : gmap string string) :
  (forall f, field_value env1 f = field_value env2 f) ->
  missing_fields env1 = missing_fields env2.
Proof.
  intros H. rewrite !missing_fields_cases. unfold present.
  rewrite !H. reflexivity.
Qed.

(** The factory's own part of a call depends only on the variables it looks
    up: an environment that agrees with [env1] on the names logged under
    [env1] gives the same validation error, or the same arguments for the
    constructor, and the same lookups. *)
Lemma get_llm_agrees_on_lookups
    (self : LLMFactory) (env1 env2 : gmap string string) (log : list string) :
  (forall k, k ∈ (get_llm self env1 []).2 -> env1 !! k = env2 !! k) ->
  get_llm self env2 log = get_llm self env1 log.
Proof.
  rewrite get_llm_log. cbn [app]. intros H.
  assert (Hk : env1 !! "AZURE_OPENAI_KEY" = env2 !! "AZURE_OPENAI_KEY")
    by (apply H; unfold lookups; set_solver).
  assert (Hv : env1 !! "AZURE_OPENAI_VERSION" = env2 !! "AZURE_OPENAI_VERSION")
    by (apply H; unfold lookups; set_solver).
  assert (He : env1 !! "AZURE_OPENAI_ENDPOINT" = env2 !! "AZURE_OPENAI_ENDPOINT")
    by (apply H; unfold lookups; set_solver).
  assert (Hp : env1 !! "AZURE_OPENAI_DEPLOYMENT_NAME" =
               env2 !! "AZURE_OPENAI_DEPLOYMENT_NAME")
    by (apply H; unfold lookups; set_solver).
  assert (Hl : lookups env2 = lookups env1)
    by (unfold lookups; rewrite Hp; reflexivity).
  assert (Hd : resolved_deployment env2 = resolved_deployment env1).
  { unfold resolved_deployment. rewrite <- Hp.
    destruct (Py.truthy (env1 !! "AZURE_OPENAI_DEPLOYMENT_NAME")) eqn:Ht;
      [reflexivity|].
    symmetry. apply H. unfold lookups. rewrite Ht. set_solver. }
  assert (Hm : missing_fields env2 = missing_fields env1).
  { apply missing_fields_ext. intros [| |]; simpl; congruence. }
  destruct (nil_or_not (missing_fields env1)) as [Hn|Hn].
  - destruct (get_llm_returns self env1 log Hn) as (x1 & Hx1 & ->).
    rewrite <- Hm in Hn.
    destruct (get_llm_returns self env2 log Hn) as (x2 & Hx2 & ->).
    rewrite He, Hx2 in Hx1. injection Hx1 as <-.
    rewrite Hk, Hv, Hd, Hl. reflexivity.
  - rewrite (get_llm_raises self env1 log Hn).
    rewrite <- Hm in Hn. rewrite (get_llm_raises self env2 log Hn).
    rewrite Hm, Hl. reflexivity.
Qed.

(** The API version is never validated: changing, setting or unsetting
    [AZURE_OPENAI_VERSION] alone turns no error into a success (nor, by
    symmetry, a success into an error), leaves the error as it is, and the
    variable is never named in the message. *)
Theorem api_version_never_causes_error
    (self : LLMFactory) (env1 env2 : gmap string string) (log : list string)
    (e : Py.exn) :
  (forall k, k <> "AZURE_OPENAI_VERSION" -> env1 !! k = env2 !! k) ->
  (get_llm self env1 log).1 = Py.Raise e ->
  (get_llm self env2 log).1 = Py.Raise e /\
  exists names,
    e = Py.EnvironmentError (header +:+ Py.join ", " names) /\
    reported_names (header +:+ Py.join ", " names) = Some names /\
    "AZURE_OPENAI_VERSION" ∉ names.
Proof.
  intros H He. apply get_llm_Raise_inv in He as (Hn & ->).
  assert (Hm : missing_fields env2 = missing_fields env1).
  { apply missing_fields_ext. intros [| |]; simpl; unfold resolved_deployment;
      rewrite !H by discriminate; reflexivity. }
  split.
  - rewrite <- Hm in Hn. rewrite (get_llm_raises self env2 log Hn), Hm.
    reflexivity.
  - eexists. split; [reflexivity|].
    split; [apply reported_names_missing, Hn|].
    intros Hin. apply list_elem_of_fmap in Hin as (f & Hf & _).
    destruct f; discriminate Hf.
Qed.

Lemma api_version_never_causes_error_witness :
  (get_llm init (<["AZURE_OPENAI_VERSION" := ""]> env_key_only) []).1 =
  Py.Raise (Py.EnvironmentError
    "Missing required environment variables: AZURE_OPENAI_ENDPOINT, AZURE_OPENAI_DEPLOYMENT_NAME").
Proof.
  apply (api_version_never_causes_error init env_key_only
           (<["AZURE_OPENAI_VERSION" := ""]> env_key_only) []).
  - intros k Hk. symmetry. apply lookup_insert_ne. congruence.
  - vm_compute. reflexivity.
Defined.

(** ** Endpoint values that differ in trailing separators *)

Lemma slashes_app (m n : nat) : slashes m +:+ slashes n = slashes (m + n).
Proof.
  induction m as [|m IH]; [reflexivity|].
  simpl. rewrite append_cons, IH. reflexivity.
Qed.

Lemma append_assoc (s t u : string) : (s +:+ t) +:+ u = s +:+ t +:+ u.
Proof.
  induction s as [|c s IH]; [reflexivity|].
  rewrite !append_cons, IH. reflexivity.
Qed.

Lemma rstrip_app_slashes (s : string) (n : nat) :
  Py.rstrip (s +:+ slashes n) "/" = Py.rstrip s "/".
Proof.
  destruct (rstrip_removes_slashes s) as (m & Hs).
  rewrite Hs at 1. rewrite append_assoc, slashes_app.
  apply rstrip_unique, rstrip_no_trailing_slash.
Qed.

Lemma rstrip_idempotent (s : string) :
  Py.rstrip (Py.rstrip s "/") "/" = Py.rstrip s "/".
Proof. apply rstrip_unchanged, rstrip_no_trailing_slash. Qed.

Lemma field_value_insert_endpoint
    (env : gmap string string) (e : string) (f : field) :
  field_value (<["AZURE_OPENAI_ENDPOINT" := e]> env) f =
  match f with Endpoint => Some e | _ => field_value env f end.
Proof.
  destruct f; simpl; unfold resolved_deployment.
  - apply lookup_insert_ne. discriminate.
  - apply lookup_insert_eq.
  - rewrite !lookup_insert_ne by discriminate. reflexivity.
Qed.

(** Two non-empty endpoint values with the same normal form give the same
    outcome. *)
Lemma get_llm_endpoint_congr
    (self : LLMFactory) (env : gmap string string) (log : list string)
    (e1 e2 : string) :
  e1 <> "" -> e2 <> "" -> Py.rstrip e1 "/" = Py.rstrip e2 "/" ->
  (get_llm self (<["AZURE_OPENAI_ENDPOINT" := e1]> env) log).1 =
  (get_llm self (<["AZURE_OPENAI_ENDPOINT" := e2]> env) log).1.
Proof.
  intros H1 H2 Hr.
  assert (Hm : missing_fields (<["AZURE_OPENAI_ENDPOINT" := e1]> env) =
               missing_fields (<["AZURE_OPENAI_ENDPOINT" := e2]> env)).
  { rewrite !missing_fields_cases. unfold present.
    rewrite !field_value_insert_endpoint.
    destruct e1, e2; try contradiction. reflexivity. }
  destruct (nil_or_not (missing_fields (<["AZURE_OPENAI_ENDPOINT" := e2]> env)))
    as [Hn|Hn].
  - destruct (get_llm_returns self _ log Hn) as (x2 & Hx2 & ->).
    rewrite <- Hm in Hn.
    destruct (get_llm_returns self _ log Hn) as (x1 & Hx1 & ->).
    rewrite lookup_insert_eq in Hx1, Hx2.
    injection Hx1 as <-. injection Hx2 as <-. cbn [fst].
    unfold resolved_deployment.
    rewrite !lookup_insert_ne by discriminate. rewrite Hr. reflexivity.
  - rewrite (get_llm_raises self _ log Hn).
    rewrite <- Hm in Hn. rewrite (get_llm_raises self _ log Hn), Hm.
    reflexivity.
Qed.

(** Trailing separators of the endpoint are insignificant: appending any
    number of them to a non-empty endpoint value changes neither the client
    returned nor the error raised. *)
Theorem trailing_separators_insignificant
    (self : LLMFactory) (env : gmap string string) (log : list string)
    (e : string) (n : nat) :
  e <> "" ->
  (get_llm self (<["AZURE_OPENAI_ENDPOINT" := e +:+ slashes n]> env) log).1 =
  (get_llm self (<["AZURE_OPENAI_ENDPOINT" := e]> env) log).1.
Proof.
  intros He. apply get_llm_endpoint_congr.
  - destruct e; [contradiction | discriminate].
  - exact He.
  - apply rstrip_app_slashes.
Qed.

Lemma trailing_separators_insignificant_witness :
  (get_llm init (<["AZURE_OPENAI_ENDPOINT" := "https://x.example.com//"]>
                  env_secondary) []).1 =
  (get_llm init (<["AZURE_OPENAI_ENDPOINT" := "https://x.example.com"]>
                  env_secondary) []).1.
Proof.
  apply (trailing_separators_insignificant init env_secondary []
           "https://x.example.com" 2).
  discriminate.
Defined.

(** Normalisation is idempotent through the factory: putting the endpoint of
    a returned client, when it is not empty, back into the endpoint variable
    yields the same client again. *)
Theorem normalised_endpoint_is_stable
    (self : LLMFactory) (env : gmap string string) (log : list string)
    (h : AzureChatOpenAI) :
  (get_llm self env log).1 = Py.Return h ->
  azure_endpoint h <> "" ->
  (get_llm self (<["AZURE_OPENAI_ENDPOINT" := azure_endpoint h]> env) log).1 =
  Py.Return h.
Proof.
  intros Hh Hne. pose proof Hh as Hinv.
  apply get_llm_Return_inv in Hinv as (Hm & x & Hx & Heq).
  assert (Hend : azure_endpoint h = Py.rstrip x "/")
    by (rewrite Heq; reflexivity).
  assert (Hxne : x <> "").
  { intros ->. apply Hne. rewrite Hend. reflexivity. }
  assert (Henv : (get_llm self env log).1 =
                 (get_llm self (<["AZURE_OPENAI_ENDPOINT" := x]> env) log).1)
    by (rewrite (insert_id env _ x Hx); reflexivity).
  rewrite <- Hh, Henv.
  apply get_llm_endpoint_congr; [exact Hne | exact Hxne |].
  rewrite Hend. apply rstrip_idempotent.
Qed.

Lemma normalised_endpoint_is_stable_witness :
  (get_llm init (<["AZURE_OPENAI_ENDPOINT" := "https://x.example.com"]>
                  env_secondary) []).1 =
  Py.Return {| api_key := Some "k"; api_version := "2024-02-15-preview";
               azure_endpoint := "https://x.example.com";
               azure_deployment := Some "gpt"; temperature := 0.0%float |}.
Proof.
  apply (normalised_endpoint_is_stable init env_secondary []
           {| api_key := Some "k"; api_version := "2024-02-15-preview";
              azure_endpoint := "https://x.example.com";
              azure_deployment := Some "gpt"; temperature := 0.0%float |}).
  - vm_compute. reflexivity.
  - discriminate.
Defined.



(** ** Acting on the error message *)

(** Setting a variable to a non-empty value never makes a present field
    missing. *)
Lemma present_insert_mono
    (env : gmap string string) (n v : string) (f : field) :
  v <> "" -> present env f = true -> present (<[n := v]> env) f = true.
Proof.
  intros Hv. destruct v as [|c s]; [contradiction|].
  unfold present, field_value, resolved_deployment.
  destruct f; rewrite ?lookup_insert; repeat case_decide; simpl; auto.
  - destruct (Py.truthy (env !! "AZURE_OPENAI_DEPLOYMENT_NAME")) eqn:Hp;
      [rewrite Hp; auto | reflexivity].
Qed.

Lemma present_insert_name (env : gmap string string) (v : string) (f : field) :
  v <> "" -> present (<[field_name f := v]> env) f = true.
Proof.
  intros Hv. destruct v as [|c s]; [contradiction|].
  unfold present, field_value, resolved_deployment.
  destruct f; simpl; rewrite !lookup_insert_eq; reflexivity.
Qed.

Lemma present_set_variables
    (env : gmap string string) (names : list string) (value : string -> string)
    (f : field) :
  (forall n, n ∈ names -> value n <> "") ->
  present env f = true \/ field_name f ∈ names ->
  present (set_variables names value env) f = true.
Proof.
  induction names as [|n names IH]; intros Hv; simpl.
  - intros [H|H]; [exact H | inversion H].
  - assert (Hn : value n <> "") by (apply Hv; left).
    assert (Hv' : forall m, m ∈ names -> value m <> "")
      by (intros m Hm; apply Hv; right; exact Hm).
    intros [H|H].
    + apply present_insert_mono; [exact Hn | apply IH; [exact Hv' | left; exact H]].
    + apply elem_of_cons in H as [<-|H].
      * apply present_insert_name, Hn.
      * apply present_insert_mono;
          [exact Hn | apply IH; [exact Hv' | right; exact H]].
Qed.

(** The message tells which fields are missing: two failed calls with the
    same message have exactly the same required fields absent or empty. *)
Theorem same_message_same_missing_fields
    (self1 self2 : LLMFactory) (env1 env2 : gmap string string)
    (log1 log2 : list string) (msg : string) :
  (get_llm self1 env1 log1).1 = Py.Raise (Py.EnvironmentError msg) ->
  (get_llm self2 env2 log2).1 = Py.Raise (Py.EnvironmentError msg) ->
  forall f,
    absent_or_empty (field_value env1 f) <-> absent_or_empty (field_value env2 f).
Proof.
  intros H1 H2 f.
  apply get_llm_Raise_inv in H1 as (Hm1 & Hmsg1).
  apply get_llm_Raise_inv in H2 as (Hm2 & Hmsg2).
  assert (Hmsg : header +:+ Py.join ", " (field_name <$> missing_fields env1) =
                 header +:+ Py.join ", " (field_name <$> missing_fields env2))
    by congruence.
  assert (Hr1 := reported_names_missing env1 Hm1).
  assert (Hr2 := reported_names_missing env2 Hm2).
  rewrite Hmsg, Hr2 in Hr1. injection Hr1 as Heq.
  rewrite <- !elem_of_missing_fields.
  rewrite <- !(@list_elem_of_fmap_inj _ _ field_name field_name_inj).
  rewrite Heq. reflexivity.
Qed.

Lemma same_message_same_missing_fields_witness :
  absent_or_empty (field_value env_key_only Endpoint) <->
  absent_or_empty (field_value env_other_key Endpoint).
Proof.
  apply (same_message_same_missing_fields init init env_key_only env_other_key
           [] []
           "Missing required environment variables: AZURE_OPENAI_ENDPOINT, AZURE_OPENAI_DEPLOYMENT_NAME").
  - vm_compute. reflexivity.
  - vm_compute. reflexivity.
Defined.

(** ** The call with the library constructor *)

Lemma first_nonempty_resolved (env : gmap string string) (d : string) :
  first_nonempty [env !! "AZURE_OPENAI_DEPLOYMENT_NAME";
                  env !! "AZURE_OPENAI_DEPLOYMENT"] = Some d <->
  resolved_deployment env = Some d /\ d <> "".
Proof.
  rewrite first_nonempty_two. unfold resolved_deployment.
  destruct (env !! "AZURE_OPENAI_DEPLOYMENT_NAME") as [[|? ?]|],
    (env !! "AZURE_OPENAI_DEPLOYMENT") as [[|? ?]|]; simpl;
    split; try (intros H; discriminate H);
    try (intros [H Hd]; try discriminate H; injection H as <-; contradiction);
    try (intros H; injection H as <-; split; [reflexivity | discriminate]);
    intros [H _]; exact H.
Qed.

(** The arguments the constructor is called with, from the variables. *)
Lemma get_llm_Return_iff
    (self : LLMFactory) (env : gmap string string) (log : list string)
    (h : AzureChatOpenAI) :
  (get_llm self env log).1 = Py.Return h <->
  exists key e d,
    env !! "AZURE_OPENAI_KEY" = Some key /\ key <> "" /\
    env !! "AZURE_OPENAI_ENDPOINT" = Some e /\ e <> "" /\
    first_nonempty [env !! "AZURE_OPENAI_DEPLOYMENT_NAME";
                    env !! "AZURE_OPENAI_DEPLOYMENT"] = Some d /\
    h = arguments_of env key e d.
Proof.
  split.
  - intros Hh. apply get_llm_Return_inv in Hh as (Hm & x & Hx & ->).
    assert (Hp := proj1 (missing_fields_nil env) Hm).
    destruct (proj1 (truthy_true _) (Hp Credential)) as (k & Hk & Hkne).
    destruct (proj1 (truthy_true _) (Hp Endpoint)) as (x' & Hx' & Hxne).
    destruct (proj1 (truthy_true _) (Hp Deployment)) as (d & Hd & Hdne).
    simpl in Hk, Hx', Hd. rewrite Hx in Hx'. injection Hx' as <-.
    exists k, x, d. repeat (split; [assumption|]).
    split; [apply first_nonempty_resolved; split; assumption|].
    unfold arguments_of. rewrite Hk, Hd. reflexivity.
  - intros (k & x & d & Hk & Hkne & Hx & Hxne & Hd & ->).
    apply first_nonempty_resolved in Hd as (Hd & Hdne).
    assert (Hm : missing_fields env = []).
    { apply missing_fields_nil. intros [| |]; apply truthy_true; simpl;
        [exists k | exists x | exists d]; split; assumption. }
    destruct (get_llm_returns self env log Hm) as (x' & Hx' & ->).
    rewrite Hx in Hx'. injection Hx' as <-.
    unfold arguments_of. rewrite Hk, Hd. reflexivity.
Qed.

Section Library.
Context {Client LibraryError : Type}.
Variable construct :
  AzureChatOpenAI -> gmap string string -> Client + LibraryError.

Lemma get_llm_with_outcome
    (self : LLMFactory) (env : gmap string string) (log : list string) :
  (get_llm_with construct self env log).1 =
  match (get_llm self env log).1 with
  | Py.Return h => library_result (construct h env)
  | Py.Raise e => Raised e
  end.
Proof.
  unfold get_llm_with. destruct (get_llm self env log) as [[h|e] l]; reflexivity.
Qed.

Lemma get_llm_with_library_result
    (self : LLMFactory) (env : gmap string string) (log : list string)
    (r : Client + LibraryError) :
  (get_llm_with construct self env log).1 = library_result r <->
  exists key e d,
    env !! "AZURE_OPENAI_KEY" = Some key /\ key <> "" /\
    env !! "AZURE_OPENAI_ENDPOINT" = Some e /\ e <> "" /\
    first_nonempty [env !! "AZURE_OPENAI_DEPLOYMENT_NAME";
                    env !! "AZURE_OPENAI_DEPLOYMENT"] = Some d /\
    construct (arguments_of env key e d) env = r.
Proof.
  rewrite get_llm_with_outcome. split.
  - destruct ((get_llm self env log).1) as [h|e] eqn:Hh.
    + intros Hr. apply get_llm_Return_iff in Hh
        as (k & x & d & Hk & Hkne & Hx & Hxne & Hd & ->).
      exists k, x, d. repeat (split; [assumption|]).
      destruct (construct (arguments_of env k x d) env), r;
        simpl in Hr; congruence.
    + intros Hr. destruct r; discriminate Hr.
  - intros (k & x & d & Hk & Hkne & Hx & Hxne & Hd & <-).
    assert (Hh : (get_llm self env log).1 = Py.Return (arguments_of env k x d)).
    { apply get_llm_Return_iff. exists k, x, d.
      repeat (split; [assumption|]). reflexivity. }
    rewrite Hh. reflexivity.
Qed.

(** A call returns a client exactly when the key and the endpoint variables
    are set and non-empty, one of the two deployment-name variables is, and
    the library constructor returns that client for the arguments resolved
    from them; under the same conditions an exception of the constructor is
    the exception of the call, not caught or replaced. *)
Theorem get_llm_with_returns_iff
    (self : LLMFactory) (env : gmap string string) (log : list string) :
  (forall c,
     (get_llm_with construct self env log).1 = Returned c <->
     exists key e d,
       env !! "AZURE_OPENAI_KEY" = Some key /\ key <> "" /\
       env !! "AZURE_OPENAI_ENDPOINT" = Some e /\ e <> "" /\
       first_nonempty [env !! "AZURE_OPENAI_DEPLOYMENT_NAME";
                       env !! "AZURE_OPENAI_DEPLOYMENT"] = Some d /\
       construct (arguments_of env key e d) env = inl c) /\
  (forall err,
     (get_llm_with construct self env log).1 = LibraryRaised err <->
     exists key e d,
       env !! "AZURE_OPENAI_KEY" = Some key /\ key <> "" /\
       env !! "AZURE_OPENAI_ENDPOINT" = Some e /\ e <> "" /\
       first_nonempty [env !! "AZURE_OPENAI_DEPLOYMENT_NAME";
                       env !! "AZURE_OPENAI_DEPLOYMENT"] = Some d /\
       construct (arguments_of env key e d) env = inr err).
Proof.
  split.
  - intros c. apply (get_llm_with_library_result self env log (inl c)).
  - intros err. apply (get_llm_with_library_result self env log (inr err)).
Qed.

(** Apart from what the library constructor reads itself, a call depends
    only on the variables the factory looks up.  If [env2] agrees with
    [env1] on the names looked up under [env1], the factory raises the same
    error or passes the same arguments to the constructor, with the same
    lookups; if moreover the constructor gives the same result for these
    arguments under both environments, the two calls end the same way. *)
Theorem get_llm_depends_on_lookups_and_library
    (self : LLMFactory) (env1 env2 : gmap string string) (log : list string) :
  (forall k, k ∈ (get_llm self env1 []).2 -> env1 !! k = env2 !! k) ->
  get_llm self env2 log = get_llm self env1 log /\
  ((forall h, (get_llm self env1 log).1 = Py.Return h ->
              construct h env2 = construct h env1) ->
   get_llm_with construct self env2 log = get_llm_with construct self env1 log).
Proof.
  intros H. assert (Heq := get_llm_agrees_on_lookups self env1 env2 log H).
  split; [exact Heq|]. intros Hc.
  unfold get_llm_with. rewrite Heq.
  destruct (get_llm self env1 log) as [[h|e] l] eqn:Hr; [|reflexivity].
  rewrite (Hc h eq_refl). reflexivity.
Qed.

(** After a failed call, giving every variable named in its message a
    non-empty value of its own makes the next call pass validation: the
    constructor is called, and what it returns or raises is how the call
    ends.  For the deployment identifier the variable named is the primary
    one, and setting it is enough whatever the secondary one holds. *)
Theorem setting_reported_variables_passes_validation
    (self : LLMFactory) (env : gmap string string) (log log' : list string)
    (msg : string) (names : list string) (value : string -> string) :
  (get_llm self env log).1 = Py.Raise (Py.EnvironmentError msg) ->
  reported_names msg = Some names ->
  (forall n, n ∈ names -> value n <> "") ->
  exists h,
    (get_llm self (set_variables names value env) log').1 = Py.Return h /\
    (get_llm_with construct self (set_variables names value env) log').1 =
    library_result (construct h (set_variables names value env)).
Proof.
  intros He Hn Hv. apply get_llm_Raise_inv in He as (Hm & Hmsg).
  injection Hmsg as ->.
  rewrite (reported_names_missing env Hm) in Hn. injection Hn as <-.
  set (env' := set_variables (field_name <$> missing_fields env) value env).
  assert (Hnil : missing_fields env' = []).
  { apply missing_fields_nil. intros f.
    apply present_set_variables; [exact Hv|].
    destruct (present env f) eqn:Hp; [left; reflexivity | right].
    apply list_elem_of_fmap_2, elem_of_missing_fields, truthy_false, Hp. }
  destruct (get_llm_returns self env' log' Hnil) as (x & _ & Hr).
  eexists. rewrite get_llm_with_outcome, Hr. split; reflexivity.
Qed.

End Library.

Lemma get_llm_depends_on_lookups_and_library_witness :
  get_llm_with sample_construct init
    (<["AZURE_OPENAI_DEPLOYMENT" := "changed"]>
     (<["HOME" := "/root"]> env_both)) [] =
  get_llm_with sample_construct init env_both [].
Proof.
  apply (get_llm_depends_on_lookups_and_library sample_construct init env_both).
  - intros k Hk. vm_compute in Hk.
    repeat (apply elem_of_cons in Hk as [->|Hk]); try reflexivity.
    inversion Hk.
  - intros h _. reflexivity.
Defined.

(** The second premise is needed: a variable the factory never looks up can
    still change how the call ends, through the constructor. *)
Example library_reads_the_environment :
  (get_llm_with sample_construct init env_both []).1 =
    Returned (arguments_of env_both "k" "https://x.example.com" "primary") /\
  (get_llm_with sample_construct init (<["HTTPS_PROXY" := ""]> env_both) []).1 =
    LibraryRaised "invalid proxy".
Proof. split; vm_compute; reflexivity. Qed.

Lemma setting_reported_variables_passes_validation_witness :
  exists h,
    (get_llm init
       (set_variables ["AZURE_OPENAI_ENDPOINT"; "AZURE_OPENAI_DEPLOYMENT_NAME"]
          sample_value env_key_only) []).1 = Py.Return h /\
    (get_llm_with sample_construct init
       (set_variables ["AZURE_OPENAI_ENDPOINT"; "AZURE_OPENAI_DEPLOYMENT_NAME"]
          sample_value env_key_only) []).1 =
    library_result
      (sample_construct h
         (set_variables ["AZURE_OPENAI_ENDPOINT"; "AZURE_OPENAI_DEPLOYMENT_NAME"]
            sample_value env_key_only)).
Proof.
  apply (setting_reported_variables_passes_validation sample_construct
           init env_key_only [] []
           "Missing required environment variables: AZURE_OPENAI_ENDPOINT, AZURE_OPENAI_DEPLOYMENT_NAME").
  - vm_compute. reflexivity.
  - vm_compute. reflexivity.
  - intros n Hn.
    repeat (apply elem_of_cons in Hn as [->|Hn]); try discriminate.
    inversion Hn.
Defined.
